(** * pip-tools-compile: the packaging manifest [setup.py]

    The repository's only source file is [setup.py]: one call of
    [setuptools.setup] with four literal keyword arguments.  This file
    embeds that call, the reading of its requirement strings (the
    PEP 508 / PEP 440 notation the literals are written in), and a model of
    the external installer that consumes the manifest. *)

From Stdlib Require Import String Ascii List Arith Bool Lia.
From stdpp Require Import base option list strings gmap.
Import ListNotations.

Local Open Scope string_scope.
Local Open Scope nat_scope.

(** ** The manifest, as written in [setup.py] *)

(** The keyword arguments of the [setup(...)] call. *)
Record Metadata : Type := {
  name : string;
  version : string;
  install_requires : list string;
  scripts : list string
}.

(** [setup(name='pip-tools-compile', version='1.0', install_requires=[...],
    scripts=['pip-tools-compile'])], lines 3-12 of [setup.py]. *)
Definition setup : Metadata := {|
  name := "pip-tools-compile";
  version := "1.0";
  install_requires :=
    [ "six";
      "pip-tools==3.6.1";
      "pip==19.3.1";
      "mock>=2.0.0; python_version < '3'" ];
  scripts := ["pip-tools-compile"]
|}.

(** What an evaluation of the script can see, and could change: the
    interpreter's [python_version] (major, minor), the environment
    variables, the command line, and the persisted files. *)
Record Runtime : Type := {
  python_version : nat * nat;
  environ : gmap string string;
  argv : list string;
  persisted : gmap string string
}.

(** Evaluating the argument expressions of the call in a runtime: the
    keyword arguments handed to [setup], and the runtime as the evaluation
    of these literals leaves it.  This stops short of the call itself; the
    script run as a whole, call included, is [Installer.run]. *)
Definition evaluate (rt : Runtime) : Metadata * Runtime := (setup, rt).

(** ** Versions and version specifiers (PEP 440, release segments) *)

(** A final release: its dot-separated numeric segments. *)
Definition Version : Type := list nat.

Definition all_zero (v : Version) : bool := forallb (Nat.eqb 0) v.

(** Release segments compare left to right; the shorter release is padded
    with zeros, so [1.0] and [1.0.0] are the same release. *)
Fixpoint vcompare (a b : Version) : comparison :=
  match a, b with
  | [], _ => if all_zero b then Eq else Lt
  | _, [] => if all_zero a then Eq else Gt
  | x :: a', y :: b' =>
      match Nat.compare x y with
      | Eq => vcompare a' b'
      | c => c
      end
  end.

Inductive Operator : Type :=
  | OpEq   (* == *)
  | OpNe   (* != *)
  | OpLe   (* <= *)
  | OpGe   (* >= *)
  | OpLt   (* <  *)
  | OpGt.  (* >  *)

Definition Specifier : Type := (Operator * Version)%type.

Definition compare_by (op : Operator) (c : comparison) : bool :=
  match op, c with
  | OpEq, Eq => true
  | OpNe, (Lt | Gt) => true
  | OpLe, (Lt | Eq) => true
  | OpGe, (Gt | Eq) => true
  | OpLt, Lt => true
  | OpGt, Gt => true
  | _, _ => false
  end.

(** [satisfies v (op, w)]: release [v] meets the clause [op w]. *)
Definition satisfies (v : Version) (s : Specifier) : bool :=
  compare_by (fst s) (vcompare v (snd s)).

(** A specifier set is a conjunction of clauses; the empty set admits every
    release. *)
Definition satisfies_all (v : Version) (ss : list Specifier) : bool :=
  forallb (satisfies v) ss.

(** An exact pin: a single [==] clause. *)
Definition is_pin (ss : list Specifier) : bool :=
  match ss with
  | [(OpEq, _)] => true
  | _ => false
  end.

(** ** Requirement strings (PEP 508) *)

(** The entries of [install_requires] are text in the notation of PEP 508:
    a distribution name, comma-separated version clauses, and after a
    semicolon an environment marker.  The reader below covers the forms the
    manifest uses and answers [None] on everything else: extras, URLs,
    pre-release and wildcard versions, the [~=] and [===] operators, and
    markers other than a single comparison of [python_version]. *)

(** The one environment marker the reader covers: a comparison of
    [python_version] with a quoted version. *)
Inductive Marker : Type :=
  | PythonVersion (op : Operator) (v : Version).

Record Requirement : Type := {
  req_name : string;
  req_specs : list Specifier;
  req_marker : option Marker
}.

Definition is_digit (c : ascii) : bool :=
  let n := nat_of_ascii c in (48 <=? n) && (n <=? 57).

Definition is_letter (c : ascii) : bool :=
  let n := nat_of_ascii c in
  ((65 <=? n) && (n <=? 90)) || ((97 <=? n) && (n <=? 122)).

Definition is_blank (c : ascii) : bool :=
  let n := nat_of_ascii c in (n =? 32) || (n =? 9).

(** Characters of a distribution name: letters, digits, [-], [_] and [.]. *)
Definition is_name_char (c : ascii) : bool :=
  let n := nat_of_ascii c in
  is_letter c || is_digit c || (n =? 45) || (n =? 95) || (n =? 46).

(** Characters an operator is spelled with: [<], [>], [=], [!]. *)
Definition is_op_char (c : ascii) : bool :=
  let n := nat_of_ascii c in
  (n =? 60) || (n =? 62) || (n =? 61) || (n =? 33).

(** The longest prefix whose characters satisfy [p], and the rest. *)
Fixpoint span (p : ascii -> bool) (l : list ascii) : list ascii * list ascii :=
  match l with
  | [] => ([], [])
  | c :: l' =>
      if p c then let '(a, b) := span p l' in (c :: a, b) else ([], l)
  end.

Fixpoint drop_blanks (l : list ascii) : list ascii :=
  match l with
  | c :: l' => if is_blank c then drop_blanks l' else l
  | [] => []
  end.

Definition strip (l : list ascii) : list ascii :=
  rev (drop_blanks (rev (drop_blanks l))).

(** The pieces of [l] between the occurrences of the separator [sep]. *)
Fixpoint split_on (sep : ascii) (l : list ascii) : list (list ascii) :=
  match l with
  | [] => [[]]
  | c :: l' =>
      if Ascii.eqb c sep then [] :: split_on sep l'
      else match split_on sep l' with
           | p :: ps => (c :: p) :: ps
           | [] => [[c]]
           end
  end.

(** A non-empty run of decimal digits, as a number. *)
Definition read_nat (l : list ascii) : option nat :=
  match l with
  | [] => None
  | _ =>
      if forallb is_digit l
      then Some (fold_left (fun acc c => 10 * acc + (nat_of_ascii c - 48)) l 0)
      else None
  end.

Definition read_version (l : list ascii) : option Version :=
  mapM read_nat (split_on "." l).

Definition read_operator (l : list ascii) : option Operator :=
  match string_of_list_ascii l with
  | "==" => Some OpEq
  | "!=" => Some OpNe
  | "<=" => Some OpLe
  | ">=" => Some OpGe
  | "<" => Some OpLt
  | ">" => Some OpGt
  | _ => None
  end.

(** One clause: an operator, then a version. *)
Definition read_specifier (l : list ascii) : option Specifier :=
  let '(o, rest) := span is_op_char (strip l) in
  op ← read_operator o;
  v ← read_version (strip rest);
  Some (op, v).

(** The clauses after the name, separated by commas; none when nothing
    follows the name. *)
Definition read_specifiers (l : list ascii) : option (list Specifier) :=
  match strip l with
  | [] => Some []
  | l' => mapM read_specifier (split_on "," l')
  end.

(** A version between matching quotes. *)
Definition read_quoted_version (l : list ascii) : option Version :=
  match l with
  | q :: l' =>
      if (nat_of_ascii q =? 39) || (nat_of_ascii q =? 34) then
        match rev l' with
        | q' :: body => if Ascii.eqb q q' then read_version (rev body) else None
        | [] => None
        end
      else None
  | [] => None
  end.

(** [python_version <op> '<version>']. *)
Definition read_marker (l : list ascii) : option Marker :=
  let '(var, rest) := span is_name_char (strip l) in
  let '(o, rest') := span is_op_char (drop_blanks rest) in
  if String.eqb (string_of_list_ascii var) "python_version" then
    op ← read_operator o;
    v ← read_quoted_version (strip rest');
    Some (PythonVersion op v)
  else None.

(** [name specifiers] or [name specifiers; marker]. *)
Definition read_requirement (s : string) : option Requirement :=
  let '(body, tail) := span (fun c => negb (Ascii.eqb c ";")) (list_ascii_of_string s) in
  let '(nm, rest) := span is_name_char (drop_blanks body) in
  match nm with
  | [] => None
  | _ =>
      specs ← read_specifiers rest;
      match tail with
      | [] => Some {| req_name := string_of_list_ascii nm;
                      req_specs := specs; req_marker := None |}
      | _ :: m =>
          mk ← read_marker m;
          Some {| req_name := string_of_list_ascii nm;
                  req_specs := specs; req_marker := Some mk |}
      end
  end.

(** The manifest's dependency list, read. *)
Definition requirements (m : Metadata) : option (list Requirement) :=
  mapM read_requirement (install_requires m).

(** ** Environment markers *)

(** [python_version] is the interpreter's [major.minor]; a marker compares
    it, as a release, with the quoted version. *)
Definition runtime_version (rt : Runtime) : Version :=
  [fst (python_version rt); snd (python_version rt)].

Definition marker_holds (rt : Runtime) (mk : Marker) : bool :=
  match mk with
  | PythonVersion op v => compare_by op (vcompare (runtime_version rt) v)
  end.

(** A requirement without marker applies everywhere. *)
Definition applies (rt : Runtime) (r : Requirement) : bool :=
  match req_marker r with
  | None => true
  | Some mk => marker_holds rt mk
  end.

(** The requirements in force in a runtime, in declaration order. *)
Definition required (rt : Runtime) (m : Metadata) : option (list Requirement) :=
  rs ← requirements m; Some (filter (fun r => applies rt r = true) rs).

(** Their distribution names; nothing when the manifest cannot be read. *)
Definition required_names (rt : Runtime) (m : Metadata) : list string :=
  default [] (map req_name <$> required rt m).

(** The requirement declared under a distribution name. *)
Definition declared (n : string) (m : Metadata) : option Requirement :=
  rs ← requirements m; List.find (fun r => String.eqb (req_name r) n) rs.

(** [a <= b] on releases. *)
Definition version_le (a b : Version) : Prop := vcompare a b <> Gt.

(** Two spellings of one release, as [1.0] and [1.0.0]. *)
Definition same_release (a b : Version) : Prop := vcompare a b = Eq.

(** ** The manifest's four requirements, read *)

Definition req_six : Requirement :=
  {| req_name := "six"; req_specs := []; req_marker := None |}.

Definition req_pip_tools : Requirement :=
  {| req_name := "pip-tools"; req_specs := [(OpEq, [3; 6; 1])]; req_marker := None |}.

Definition req_pip : Requirement :=
  {| req_name := "pip"; req_specs := [(OpEq, [19; 3; 1])]; req_marker := None |}.

Definition mock_marker : Marker := PythonVersion OpLt [3].

Definition req_mock : Requirement :=
  {| req_name := "mock"; req_specs := [(OpGe, [2; 0; 0])];
     req_marker := Some mock_marker |}.

(** Two sample runtimes. *)
Definition python27 : Runtime :=
  {| python_version := (2, 7); environ := ∅; argv := []; persisted := ∅ |}.

Definition python38 : Runtime :=
  {| python_version := (3, 8); environ := ∅; argv := []; persisted := ∅ |}.

(** ** The installer *)

Module Installer.

(** Modelled from the spec: what an installation leaves behind.  The
    installer is external packaging infrastructure, absent from the
    repository; the spec describes its one operation as "read this manifest
    and register the declared script as an executable with the declared
    dependencies installed".  [executables] are the files registered as
    executables, by their path under the scripts directory; [packages] maps
    each installed distribution to its installed release. *)
Record Installed : Type := {
  executables : gset string;
  packages : gmap string Version
}.

(** Modelled from the spec: the inputs of an installation besides the
    manifest: the runtime it runs in, the releases on offer for each
    distribution (preferred first), and the files of the source tree. *)
Record Inputs : Type := {
  runtime : Runtime;
  releases : string -> list Version;
  source_tree : gset string
}.

(** Modelled from the spec: the failures the spec leaves to the installer
    (a dependency that cannot be resolved, a missing script file), and a
    dependency list that cannot be read. *)
Inductive Failure : Type :=
  | MalformedRequirement
  | NoMatchingRelease (n : string)
  | MissingScriptFile (path : string).

(** Modelled from the spec: the release to hold for one requirement.  An
    installed release that already meets the constraints is kept; otherwise
    the first release on offer that meets them is taken. *)
Definition select (offered : list Version) (specs : list Specifier)
    (current : option Version) : option Version :=
  match current with
  | Some v =>
      if satisfies_all v specs then Some v
      else List.find (fun w => satisfies_all w specs) offered
  | None => List.find (fun w => satisfies_all w specs) offered
  end.

(** Modelled from the spec: "with the declared dependencies installed",
    one requirement after the other. *)
Fixpoint install_requirements (inp : Inputs) (rs : list Requirement)
    (pk : gmap string Version) : Failure + gmap string Version :=
  match rs with
  | [] => inr pk
  | r :: rs' =>
      match select (releases inp (req_name r)) (req_specs r) (pk !! req_name r) with
      | Some v => install_requirements inp rs' (<[req_name r := v]> pk)
      | None => inl (NoMatchingRelease (req_name r))
      end
  end.

(** The last component of a [/]-separated path. *)
Definition basename (path : string) : string :=
  string_of_list_ascii (List.last (split_on "/" (list_ascii_of_string path)) []).

(** Modelled from the spec: "register the declared script as an
    executable".  Every declared script must be a file of the source tree;
    each is registered under its base name. *)
Definition install_scripts (inp : Inputs) (ss : list string)
    (ex : gset string) : Failure + gset string :=
  match List.find (fun s => bool_decide (s ∉ source_tree inp)) ss with
  | Some s => inl (MissingScriptFile s)
  | None => inr (ex ∪ list_to_set (map basename ss))
  end.

(** Modelled from the spec: the installation of a manifest over an
    installed state: read the manifest, install the dependencies in force
    in the runtime, register the scripts. *)
Definition install (inp : Inputs) (m : Metadata) (st : Installed)
    : Failure + Installed :=
  match required (runtime inp) m with
  | None => inl MalformedRequirement
  | Some rs =>
      match install_requirements inp rs (packages st) with
      | inl e => inl e
      | inr pk =>
          match install_scripts inp (scripts m) (executables st) with
          | inl e => inl e
          | inr ex => inr {| executables := ex; packages := pk |}
          end
      end
  end.

(** A requirement is met by an installed state. *)
Definition met (pk : gmap string Version) (r : Requirement) : Prop :=
  exists v, pk !! req_name r = Some v /\ satisfies_all v (req_specs r) = true.

(** An index offering the pinned releases, and an empty installation. *)
Definition sample_releases (n : string) : list Version :=
  if String.eqb n "six" then [[1; 16; 0]; [1; 12; 0]]
  else if String.eqb n "pip-tools" then [[4; 2; 0]; [3; 6; 1]]
  else if String.eqb n "pip" then [[20; 0]; [19; 3; 1]; [9; 0; 3]]
  else if String.eqb n "mock" then [[3; 0; 5]; [1; 0; 1]]
  else [].

Definition sample_inputs : Inputs :=
  {| runtime := python27;
     releases := sample_releases;
     source_tree := {["setup.py"; "pip-tools-compile"]} |}.

Definition nothing_installed : Installed :=
  {| executables := ∅; packages := ∅ |}.

Definition sample_installed : Installed :=
  {| executables := {["pip-tools-compile"]};
     packages := <["mock" := [3; 0; 5]]> (<["pip" := [19; 3; 1]]>
                 (<["pip-tools" := [3; 6; 1]]> (<["six" := [1; 16; 0]]> ∅))) |}.




(** A manifest that constrains one distribution in two entries, an index
    for it, and a state holding an old release. *)
Definition twice_required : Metadata :=
  {| name := "sample"; version := "0"; install_requires := ["a<=2"; "a>=2"];
     scripts := [] |}.

Definition twice_inputs : Inputs :=
  {| runtime := python38;
     releases := fun _ => [[3]; [2]; [1]];
     source_tree := ∅ |}.

Definition holds_a (v : Version) : Installed :=
  {| executables := ∅; packages := {["a" := v]} |}.

End Installer.

(** ** Properties of the release order *)

Lemma all_zero_compare_nil (v : Version) :
  vcompare v [] = if all_zero v then Eq else Gt.
Proof. destruct v; reflexivity. Qed.

Lemma vcompare_nil_l (v : Version) :
  vcompare [] v = if all_zero v then Eq else Lt.
Proof. reflexivity. Qed.

(** Swapping the arguments reverses the outcome. *)
Lemma vcompare_antisym (a b : Version) :
  vcompare b a = CompOpp (vcompare a b).
Proof.
  revert b; induction a as [|x a IH]; intros b.
  - rewrite all_zero_compare_nil, vcompare_nil_l.
    destruct (all_zero b); reflexivity.
  - destruct b as [|y b].
    + rewrite all_zero_compare_nil, vcompare_nil_l.
      destruct (all_zero (x :: a)); reflexivity.
    + simpl. rewrite (Nat.compare_antisym x y).
      destruct (x ?= y); simpl; auto.
Qed.

Lemma vcompare_refl (a : Version) : vcompare a a = Eq.
Proof.
  induction a as [|x a IH]; simpl; [reflexivity|].
  now rewrite Nat.compare_refl.
Qed.

Lemma version_le_ge (a b : Version) :
  version_le a b <-> compare_by OpGe (vcompare b a) = true.
Proof.
  unfold version_le. rewrite (vcompare_antisym a b).
  destruct (vcompare a b); simpl; split; congruence.
Qed.

(** Trailing zero segments do not change a release. *)
Lemma vcompare_pad_zero (a : Version) : vcompare (a ++ [0])%list a = Eq.
Proof.
  induction a as [|x a IH]; simpl; [reflexivity|].
  rewrite Nat.compare_refl. exact IH.
Qed.

(** A runtime is older than [3] exactly when its major number is below 3,
    and at least [3] exactly when it is not. *)
Lemma older_iff_major (rt : Runtime) :
  marker_holds rt mock_marker = true <-> fst (python_version rt) < 3.
Proof.
  unfold marker_holds, mock_marker, runtime_version.
  destruct (python_version rt) as [major minor]; simpl.
  destruct (Nat.compare_spec major 3) as [->|H|H]; simpl.
  - destruct minor; simpl; split; (discriminate || lia).
  - split; auto.
  - split; [discriminate | lia].
Qed.

Lemma newer_iff_major (rt : Runtime) :
  marker_holds rt (PythonVersion OpGe [3]) = true <-> 3 <= fst (python_version rt).
Proof.
  unfold marker_holds, runtime_version.
  destruct (python_version rt) as [major minor]; simpl.
  destruct (Nat.compare_spec major 3) as [->|H|H]; simpl.
  - destruct minor; simpl; split; auto.
  - split; [discriminate | lia].
  - split; auto; lia.
Qed.

(** ** The reader at work *)

Example release_padding : vcompare [1; 0] [1; 0; 0] = Eq.
Proof. reflexivity. Qed.

Example release_order_numeric : vcompare [3; 10] [3; 9] = Gt.
Proof. reflexivity. Qed.

Example read_two_clauses :
  read_requirement "mock >= 2.0.0 , < 3 ; python_version<'3.0'" =
  Some {| req_name := "mock"; req_specs := [(OpGe, [2; 0; 0]); (OpLt, [3])];
          req_marker := Some (PythonVersion OpLt [3; 0]) |}.
Proof. vm_compute. reflexivity. Qed.

Example read_rejects_compatible_release : read_requirement "six~=1.0" = None.
Proof. vm_compute. reflexivity. Qed.

Example read_rejects_prerelease : read_requirement "six==1.0rc1" = None.
Proof. vm_compute. reflexivity. Qed.

Example read_rejects_other_marker :
  read_requirement "mock; sys_platform == 'win32'" = None.
Proof. vm_compute. reflexivity. Qed.

Example read_rejects_empty : read_requirement "" = None.
Proof. vm_compute. reflexivity. Qed.

(** ** Reading the manifest *)

Lemma requirements_setup :
  requirements setup = Some [req_six; req_pip_tools; req_pip; req_mock].
Proof. vm_compute. reflexivity. Qed.

Lemma required_setup (rt : Runtime) :
  required rt setup =
  Some (if marker_holds rt mock_marker
        then [req_six; req_pip_tools; req_pip; req_mock]
        else [req_six; req_pip_tools; req_pip]).
Proof.
  unfold required. rewrite requirements_setup.
  assert (Hm : applies rt req_mock = marker_holds rt mock_marker) by reflexivity.
  cbn [mbind option_bind]. f_equal.
  rewrite !filter_cons, filter_nil, Hm.
  destruct (marker_holds rt mock_marker); reflexivity.
Qed.

Lemma required_names_setup (rt : Runtime) :
  required_names rt setup =
  if marker_holds rt mock_marker
  then ["six"; "pip-tools"; "pip"; "mock"]
  else ["six"; "pip-tools"; "pip"].
Proof.
  unfold required_names. rewrite required_setup.
  destruct (marker_holds rt mock_marker); reflexivity.
Qed.

(** ** The declared metadata *)

(** C1: the declared dependency list is, in this order and with nothing
    else, [six] without constraint, [pip-tools] pinned to exactly 3.6.1,
    [pip] pinned to exactly 19.3.1, and [mock] under an environment marker. *)
Theorem install_requires_exact :
  install_requires setup =
    ["six"; "pip-tools==3.6.1"; "pip==19.3.1"; "mock>=2.0.0; python_version < '3'"]
  /\ requirements setup =
    Some [ {| req_name := "six"; req_specs := []; req_marker := None |};
           {| req_name := "pip-tools"; req_specs := [(OpEq, [3; 6; 1])];
              req_marker := None |};
           {| req_name := "pip"; req_specs := [(OpEq, [19; 3; 1])];
              req_marker := None |};
           {| req_name := "mock"; req_specs := [(OpGe, [2; 0; 0])];
              req_marker := Some (PythonVersion OpLt [3]) |} ]
  /\ (forall v, satisfies_all v (req_specs req_pip_tools) = true <-> same_release v [3; 6; 1])
  /\ (forall v, satisfies_all v (req_specs req_pip) = true <-> same_release v [19; 3; 1]).
Proof.
  split; [reflexivity|]. split; [vm_compute; reflexivity|].
  unfold same_release, satisfies_all, satisfies; cbn [forallb req_specs req_pip_tools req_pip fst snd].
  split; intros v.
  - destruct (vcompare v [3; 6; 1]); simpl; split; congruence.
  - destruct (vcompare v [19; 3; 1]); simpl; split; congruence.
Qed.

(** C8: the package is named [pip-tools-compile], and the single declared
    script carries that same name. *)
Theorem name_is_script_name :
  name setup = "pip-tools-compile" /\ scripts setup = [name setup].
Proof. split; reflexivity. Qed.

(** C9: the declared version is the string [1.0]. *)
Theorem version_is_1_0 : version setup = "1.0".
Proof. reflexivity. Qed.

(** C7: whatever the environment variables, command line and persisted
    files of two runtimes, the metadata handed to [setup] is the same. *)
Theorem metadata_independent_of_runtime (rt1 rt2 : Runtime) :
  fst (evaluate rt1) = fst (evaluate rt2).
Proof. reflexivity. Qed.

(** What does vary with the runtime is which requirements are in force:
    the marker is declared as text and decided by the installer. *)
Lemma required_varies_with_python_version :
  exists rt1 rt2,
    fst (evaluate rt1) = fst (evaluate rt2)
    /\ required rt1 setup <> required rt2 setup.
Proof.
  exists {| python_version := (2, 7); environ := ∅; argv := []; persisted := ∅ |},
         {| python_version := (3, 8); environ := ∅; argv := []; persisted := ∅ |}.
  split; [reflexivity|]. rewrite !required_setup. discriminate.
Qed.

(** ** The conditional dependency *)

(** C2: in every runtime where the marker [python_version < '3'] holds,
    [mock] is among the required dependencies; in every runtime with
    [python_version >= '3'] it is not. *)
Theorem mock_only_when_older (rt : Runtime) :
  (marker_holds rt (PythonVersion OpLt [3]) = true ->
     "mock" ∈ required_names rt setup)
  /\ (marker_holds rt (PythonVersion OpGe [3]) = true ->
     "mock" ∉ required_names rt setup).
Proof.
  rewrite required_names_setup. split.
  - intros H. fold mock_marker in H. rewrite H. set_solver.
  - intros H. apply newer_iff_major in H.
    destruct (marker_holds rt mock_marker) eqn:E.
    + apply older_iff_major in E. lia.
    + intros Hin. repeat (apply elem_of_cons in Hin as [Hin|Hin]; [discriminate|]).
      inversion Hin.
Qed.

(** Every runtime falls under exactly one of the two cases. *)
Lemma older_or_newer (rt : Runtime) :
  marker_holds rt (PythonVersion OpGe [3]) = negb (marker_holds rt (PythonVersion OpLt [3])).
Proof.
  unfold marker_holds. destruct (vcompare (runtime_version rt) [3]); reflexivity.
Qed.

Lemma mock_only_when_older_witness :
  "mock" ∈ required_names python27 setup /\ "mock" ∉ required_names python38 setup.
Proof.
  split.
  - apply (proj1 (mock_only_when_older python27)). reflexivity.
  - apply (proj2 (mock_only_when_older python38)). reflexivity.
Defined.


(** ** Unpinned dependencies *)

(** C10: [six] is declared without any version constraint, so every release
    satisfies it; [mock] carries only the lower bound [>= 2.0.0], so exactly
    the releases from 2.0.0 on satisfy it; neither is an exact pin. *)
Theorem six_and_mock_unpinned :
  (exists r, declared "six" setup = Some r
     /\ req_specs r = []
     /\ (forall v, satisfies_all v (req_specs r) = true)
     /\ is_pin (req_specs r) = false)
  /\ (exists r, declared "mock" setup = Some r
     /\ req_specs r = [(OpGe, [2; 0; 0])]
     /\ (forall v, satisfies_all v (req_specs r) = true <-> version_le [2; 0; 0] v)
     /\ is_pin (req_specs r) = false
     /\ satisfies_all [2; 0; 0] (req_specs r) = true
     /\ satisfies_all [3; 0; 5] (req_specs r) = true
     /\ ~ same_release [2; 0; 0] [3; 0; 5]).
Proof.
  split.
  - exists req_six. unfold declared. rewrite requirements_setup.
    repeat split.
  - exists req_mock. unfold declared. rewrite requirements_setup.
    split; [reflexivity|]. split; [reflexivity|]. split; [|repeat split; discriminate].
    intros v. rewrite version_le_ge.
    unfold satisfies_all, satisfies. cbn [req_specs req_mock forallb fst snd].
    now rewrite andb_true_r.
Qed.

(** ** The installer: dependencies *)

Section InstallerFacts.

Import Installer.

Variable inp : Inputs.

Lemma select_satisfies offered specs current v :
  select offered specs current = Some v -> satisfies_all v specs = true.
Proof.
  unfold select. destruct current as [w|].
  - destruct (satisfies_all w specs) eqn:E.
    + intros [= <-]. exact E.
    + intros H. now apply find_some in H.
  - intros H. now apply find_some in H.
Qed.

Lemma select_keep offered specs v :
  satisfies_all v specs = true -> select offered specs (Some v) = Some v.
Proof. intros H. unfold select. now rewrite H. Qed.

Lemma select_offered offered specs current v :
  In v offered -> satisfies_all v specs = true ->
  exists w, select offered specs current = Some w.
Proof.
  intros Hin Hsat.
  assert (Hfind : exists w, List.find (fun w => satisfies_all w specs) offered = Some w).
  { destruct (List.find _ offered) as [w|] eqn:E; [now exists w|].
    apply (find_none _ _ E) in Hin. simpl in Hin. congruence. }
  unfold select. destruct current as [u|]; [|exact Hfind].
  destruct (satisfies_all u specs); [now exists u | exact Hfind].
Qed.

(** Installing requirements leaves the other distributions alone. *)
Lemma install_requirements_other rs : forall pk pk' n,
  install_requirements inp rs pk = inr pk' ->
  n ∉ map req_name rs ->
  pk' !! n = pk !! n.
Proof.
  induction rs as [|r rs IH]; intros pk pk' n Hrun Hn; simpl in Hrun.
  - now injection Hrun as <-.
  - destruct (select _ _ _) as [v|]; [|discriminate].
    simpl in Hn. apply not_elem_of_cons in Hn as [Hne Hn].
    rewrite (IH _ _ _ Hrun Hn). now apply lookup_insert_ne.
Qed.

(** After a successful run every requirement is met, provided no
    distribution is required twice. *)
Lemma install_requirements_met rs : forall pk pk',
  NoDup (map req_name rs) ->
  install_requirements inp rs pk = inr pk' ->
  Forall (met pk') rs.
Proof.
  induction rs as [|r rs IH]; intros pk pk' Hnd Hrun; [constructor|].
  simpl in Hrun, Hnd. apply NoDup_cons in Hnd as [Hfresh Hnd].
  destruct (select _ _ _) as [v|] eqn:Hsel; [|discriminate].
  constructor; [|exact (IH _ _ Hnd Hrun)].
  exists v. split; [|exact (select_satisfies _ _ _ _ Hsel)].
  rewrite (install_requirements_other _ _ _ _ Hrun Hfresh).
  apply lookup_insert_eq.
Qed.

(** Where every requirement is already met, nothing is changed. *)
Lemma install_requirements_fixed rs pk :
  Forall (met pk) rs -> install_requirements inp rs pk = inr pk.
Proof.
  induction 1 as [|r rs [v [Hv Hsat]] _ IH]; [reflexivity|].
  simpl. rewrite Hv, (select_keep _ _ _ Hsat), (insert_id _ _ _ Hv). exact IH.
Qed.

(** The run succeeds when each requirement has a fitting release on offer. *)
Lemma install_requirements_total rs : forall pk,
  Forall (fun r => exists v, In v (releases inp (req_name r))
                          /\ satisfies_all v (req_specs r) = true) rs ->
  exists pk', install_requirements inp rs pk = inr pk'.
Proof.
  induction rs as [|r rs IH]; intros pk Hall; [now exists pk|].
  apply Forall_cons in Hall as [[v [Hin Hsat]] Hall]. simpl.
  destruct (select_offered _ _ (pk !! req_name r) _ Hin Hsat) as [w ->].
  apply IH, Hall.
Qed.

(** ** The installer: scripts *)

Lemma install_scripts_inr ss ex ex' :
  install_scripts inp ss ex = inr ex' ->
  Forall (fun s => s ∈ source_tree inp) ss
  /\ ex' = ex ∪ list_to_set (map basename ss).
Proof.
  unfold install_scripts.
  destruct (List.find _ ss) as [s|] eqn:E; [discriminate|].
  intros [= <-]. split; [|reflexivity].
  apply Forall_forall. intros s Hs.
  apply list_elem_of_In in Hs. apply (find_none _ _ E) in Hs. simpl in Hs.
  apply bool_decide_eq_false in Hs. now apply dec_stable.
Qed.

Lemma install_scripts_total ss ex :
  Forall (fun s => s ∈ source_tree inp) ss ->
  install_scripts inp ss ex = inr (ex ∪ list_to_set (map basename ss)).
Proof.
  intros Hall. unfold install_scripts.
  destruct (List.find _ ss) as [s|] eqn:E; [|reflexivity].
  apply find_some in E as [Hin Hs]. apply bool_decide_eq_true in Hs.
  rewrite Forall_forall in Hall. apply list_elem_of_In in Hin.
  now specialize (Hall _ Hin).
Qed.

Lemma install_scripts_again ss ex ex' :
  install_scripts inp ss ex = inr ex' -> install_scripts inp ss ex' = inr ex'.
Proof.
  intros H. apply install_scripts_inr in H as [Hall ->].
  rewrite (install_scripts_total _ _ Hall). f_equal.
  rewrite <- (assoc_L (∪)). now rewrite (idemp_L (∪)).
Qed.

(** ** The installer: whole runs *)

(** A second run over the state the first run left changes nothing, for any
    manifest that requires no distribution twice. *)
Lemma install_again (m : Metadata) (st st' : Installed) :
  (forall rs, required (runtime inp) m = Some rs -> NoDup (map req_name rs)) ->
  install inp m st = inr st' -> install inp m st' = inr st'.
Proof.
  intros Hnd. unfold install.
  destruct (required (runtime inp) m) as [rs|]; [|discriminate].
  specialize (Hnd rs eq_refl).
  destruct (install_requirements inp rs (packages st)) as [e|pk] eqn:Hpk; [discriminate|].
  destruct (install_scripts inp (scripts m) (executables st)) as [e|ex] eqn:Hex; [discriminate|].
  intros [= <-]. simpl.
  rewrite (install_requirements_fixed _ _ (install_requirements_met _ _ _ Hnd Hpk)).
  now rewrite (install_scripts_again _ _ _ Hex).
Qed.

(** The condition is needed: where two entries constrain one distribution,
    a second run can undo the first. *)
Example install_twice_required :
  install twice_inputs twice_required (holds_a [1]) = inr (holds_a [3])
  /\ install twice_inputs twice_required (holds_a [3]) = inr (holds_a [2]).
Proof. split; vm_compute; reflexivity. Qed.

Lemma required_setup_NoDup (rt : Runtime) (rs : list Requirement) :
  required rt setup = Some rs -> NoDup (map req_name rs).
Proof.
  rewrite required_setup.
  destruct (marker_holds rt mock_marker); intros [= <-]; simpl;
    repeat (apply NoDup_cons_2;
            [ rewrite ?elem_of_cons, elem_of_nil; intros H;
              decompose [or] H; (discriminate || contradiction) | ]);
    apply NoDup_nil_2.
Qed.

End InstallerFacts.

Import Installer.

(** The installation of this manifest succeeds whenever the script is in
    the source tree and each of the four distributions has a fitting
    release on offer. *)
Lemma install_setup_total (inp : Inputs) (st : Installed) :
  "pip-tools-compile" ∈ source_tree inp ->
  Forall (fun r => exists v, In v (releases inp (req_name r))
                          /\ satisfies_all v (req_specs r) = true)
         [req_six; req_pip_tools; req_pip; req_mock] ->
  exists st', install inp setup st = inr st'.
Proof.
  intros Hscript Hall. unfold install. rewrite required_setup.
  assert (Hrs : Forall (fun r => exists v, In v (releases inp (req_name r))
                          /\ satisfies_all v (req_specs r) = true)
             (if marker_holds (runtime inp) mock_marker
              then [req_six; req_pip_tools; req_pip; req_mock]
              else [req_six; req_pip_tools; req_pip])).
  { destruct (marker_holds _ _); [exact Hall|].
    rewrite !Forall_cons in Hall. rewrite !Forall_cons. tauto. }
  destruct (install_requirements_total inp _ (packages st) Hrs) as [pk ->].
  rewrite (install_scripts_total inp (scripts setup) (executables st)).
  - eauto.
  - simpl. repeat constructor. exact Hscript.
Qed.

(** C4: the manifest declares exactly one script, the path
    [pip-tools-compile]; after every installation that file, which the
    source tree then holds, is registered as an executable under that
    path, and it is the only one the installation adds. *)
Theorem script_registered :
  scripts setup = ["pip-tools-compile"]
  /\ forall (inp : Inputs) (st st' : Installed),
      install inp setup st = inr st' ->
      "pip-tools-compile" ∈ source_tree inp
      /\ "pip-tools-compile" ∈ executables st'
      /\ executables st' = executables st ∪ {["pip-tools-compile"]}.
Proof.
  split; [reflexivity|]. intros inp st st'. unfold install.
  destruct (required (runtime inp) setup) as [rs|]; [|discriminate].
  destruct (install_requirements inp rs (packages st)) as [e|pk]; [discriminate|].
  destruct (install_scripts inp (scripts setup) (executables st)) as [e|ex] eqn:Hex;
    [discriminate|].
  intros [= <-]. apply install_scripts_inr in Hex as [Hall ->].
  change (scripts setup) with ["pip-tools-compile"] in Hall.
  apply Forall_cons in Hall as [Hscript _].
  change (map basename (scripts setup)) with ["pip-tools-compile"].
  assert (Hset : (list_to_set ["pip-tools-compile"] : gset string)
                 = {["pip-tools-compile"]}) by apply (right_id_L ∅ (∪)).
  cbn [executables]. rewrite Hset.
  split; [exact Hscript|]. split; [|reflexivity].
  apply elem_of_union_r, elem_of_singleton. reflexivity.
Qed.

Lemma script_registered_witness :
  install sample_inputs setup nothing_installed = inr sample_installed
  /\ "pip-tools-compile" ∈ executables sample_installed.
Proof.
  assert (H : install sample_inputs setup nothing_installed = inr sample_installed)
    by (vm_compute; reflexivity).
  split; [exact H|].
  exact (proj1 (proj2 (proj2 script_registered sample_inputs _ _ H))).
Defined.

(** C5: installing the manifest a second time, with the same inputs, over
    the state the first installation left succeeds and leaves exactly that
    state. *)
Theorem install_idempotent (inp : Inputs) (st st' : Installed) :
  install inp setup st = inr st' -> install inp setup st' = inr st'.
Proof.
  apply install_again. intros rs. apply required_setup_NoDup.
Qed.

Lemma install_idempotent_witness :
  install sample_inputs setup nothing_installed = inr sample_installed
  /\ install sample_inputs setup sample_installed = inr sample_installed.
Proof.
  assert (H : install sample_inputs setup nothing_installed = inr sample_installed)
    by (vm_compute; reflexivity).
  split; [exact H|].
  exact (install_idempotent sample_inputs nothing_installed sample_installed H).
Defined.

(** ** Running the script *)





(** ** The declared constraints among themselves *)

(** X4: the four declared constraints name four distributions and can be met
    together, with [pip] at 19.3.1 and [pip-tools] at 3.6.1.  What the
    pinned releases require in turn is not part of the manifest. *)
Lemma declared_constraints_satisfiable :
  exists pick : string -> Version,
    pick "pip" = [19; 3; 1] /\ pick "pip-tools" = [3; 6; 1]
    /\ forall rs, requirements setup = Some rs ->
         Forall (fun r => satisfies_all (pick (req_name r)) (req_specs r) = true) rs.
Proof.
  exists (fun n => if String.eqb n "pip" then [19; 3; 1]
                   else if String.eqb n "pip-tools" then [3; 6; 1]
                   else [2; 0; 0]).
  split; [reflexivity|]. split; [reflexivity|].
  intros rs. rewrite requirements_setup. intros [= <-].
  repeat constructor.
Qed.

(** ** What the marker makes of the runtime *)

Ltac not_listed :=
  rewrite ?elem_of_cons, elem_of_nil;
  let H := fresh in intros H; decompose [or] H; (discriminate || contradiction).

Ltac distinct_names :=
  repeat (apply NoDup_cons_2; [not_listed|]); apply NoDup_nil_2.

(** X1: [mock] is among the dependencies in force exactly in the runtimes
    whose major version is below 3; the minor version plays no part. *)
Theorem mock_required_iff_major_below_3 (rt : Runtime) :
  "mock" ∈ required_names rt setup <-> fst (python_version rt) < 3.
Proof.
  rewrite required_names_setup, <- older_iff_major.
  destruct (marker_holds rt mock_marker); split; intros H.
  - reflexivity.
  - apply list_elem_of_In. simpl. tauto.
  - exfalso. revert H. not_listed.
  - discriminate.
Qed.

(** X2: two runtimes with the same major version have the same
    requirements in force, whatever their minor versions, environment
    variables, command lines and files. *)
Theorem same_major_same_requirements (rt1 rt2 : Runtime) :
  fst (python_version rt1) = fst (python_version rt2) ->
  required rt1 setup = required rt2 setup.
Proof.
  intros Hmajor. rewrite !required_setup.
  destruct (marker_holds rt1 mock_marker) eqn:E1,
           (marker_holds rt2 mock_marker) eqn:E2; try reflexivity; exfalso.
  - apply older_iff_major in E1. rewrite Hmajor in E1.
    apply older_iff_major in E1. congruence.
  - apply older_iff_major in E2. rewrite <- Hmajor in E2.
    apply older_iff_major in E2. congruence.
Qed.

Lemma same_major_same_requirements_witness :
  required python27 setup =
  required {| python_version := (2, 6); environ := {["HOME" := "/root"]};
              argv := ["install"]; persisted := ∅ |} setup.
Proof. apply same_major_same_requirements. reflexivity. Defined.

(** X3: in every runtime the dependencies in force name pairwise different
    distributions, and the package itself is not one of them. *)
Theorem required_names_distinct (rt : Runtime) :
  NoDup (required_names rt setup) /\ name setup ∉ required_names rt setup.
Proof.
  rewrite required_names_setup.
  destruct (marker_holds rt mock_marker); split;
    solve [distinct_names | simpl; not_listed].
Qed.
